(** * space.py: polar vectors, angles and the per-step force integration

    A shallow embedding of [space.py], in two readings of its numbers.

    The first reads a Python number as a real ([R]) and the operations of
    the [math] module as the functions of the same name of the Standard
    Library ([cos], [sin], [atan], [sqrt], [PI]). It is the arithmetic the
    formulas of the module are written in, and it carries their algebra:
    what a returned vector is, what an update leaves alone. It has no
    rounding and no overflow: where these decide whether a call returns (a
    cosine that is zero only in exact arithmetic, a radicand that rounding
    makes negative, a square that overflows), the second reading is the one
    to consult.

    The second, [Binary64], reads the numbers of [Angle] and of
    [VectorizeParameter.__add__] as binary64 floats, with the checks the
    interpreter wraps around the C library. It carries what the addition
    raises.

    Python exceptions are values of [exception] and every operation that
    can raise returns a [result]. Mutable objects are records, and a method
    that assigns to [self] returns the new record next to its return
    value. *)

From Stdlib Require Import Reals Lra Psatz List String.
From Stdlib Require PrimFloat.
Import ListNotations.

Open Scope R_scope.

(** ** Exceptions and results *)

(** The built-in exceptions the module can raise. The module declares no
    exception class of its own. *)
Inductive exception : Type :=
| ZeroDivisionError
| ValueError
| TypeError
| OverflowError.

Inductive result (A : Type) : Type :=
| Ok (a : A)
| Raise (e : exception).

Arguments Ok {A} a.
Arguments Raise {A} e.

Definition bind {A B : Type} (m : result A) (k : A -> result B) : result B :=
  match m with
  | Ok a => k a
  | Raise e => Raise e
  end.

Notation "x <- m ;; k" := (bind m (fun x => k))
  (at level 61, m at next level, right associativity).

Notation "' pat <- m ;; k" := (bind m (fun x => match x with pat => k end))
  (at level 61, pat pattern, m at next level, right associativity).

(** [x / y] on Python floats: a zero divisor raises. *)
Definition py_truediv (x y : R) : result R :=
  if Req_dec_T y 0 then Raise ZeroDivisionError else Ok (x / y).

(** [math.sqrt]: a negative argument raises [ValueError]. *)
Definition math_sqrt (x : R) : result R :=
  if Rlt_dec x 0 then Raise ValueError else Ok (sqrt x).

(** Python 3's [map] builds a lazy iterator: the function is applied to no
    element until the iterator is consumed. *)
Record map_object (A B : Type) : Type := py_map
  { map_func : A -> B;
    map_iter : list A }.

Arguments py_map {A B} map_func map_iter.

(** ** class Angle *)

Module Angle.

Record t : Type := mk { value : R }.

(** [Angle(value, to_deg=False)] *)
Definition init (value : R) (to_deg : bool) : t :=
  mk (if negb to_deg then value else value * 180 / PI).

Definition degrees (self : t) : R := value self.

Definition radians (self : t) : R := value self * PI / 180.

Definition sub (self other : t) : t :=
  init (value self - value other) false.

Definition add (self other : t) : t :=
  init (value self + value other) false.

End Angle.

(** ** class VectorizeParameter *)

Module VectorizeParameter.

Record t : Type := mk
  { value : R;
    angle : Angle.t;
    name : string }.

(** The default of the [name] argument of the constructor. *)
Definition default_name : string := "val".

(** [VectorizeParameter(value, angle, name="val")] *)
Definition init (value : R) (angle : Angle.t) (name : option string) : t :=
  mk value angle (match name with Some n => n | None => default_name end).

Definition x_vector (self : t) : R :=
  value self * cos (Angle.radians (angle self)).

Definition y_vector (self : t) : R :=
  value self * sin (Angle.radians (angle self)).

(** [__add__] over the reals; [Binary64.add] below is the same method on
    floats. *)
Definition add (self other : t) : result t :=
  let a := value self in
  let b := value other in
  let alpha := angle self in
  let betta := angle other in
  c <- math_sqrt (a ^ 2 + b ^ 2
                  + 2 * a * b * cos (Angle.radians (Angle.sub alpha betta))) ;;
  let fx := a * cos (Angle.radians alpha) + b * cos (Angle.radians betta) in
  let fy := a * sin (Angle.radians alpha) + b * sin (Angle.radians betta) in
  q <- py_truediv fy fx ;;
  let angle := Angle.init (atan q) true in
  let v := init c angle None in
  Ok v.

Definition mul (self : t) (other : R) : t :=
  init (value self * other) (angle self) None.

Definition truediv (self : t) (other : R) : result t :=
  q <- py_truediv (value self) other ;;
  Ok (init q (angle self) None).

End VectorizeParameter.

(** ** class Speed *)

Module Speed.

Record t : Type := mk
  { linear : VectorizeParameter.t;
    rotational : VectorizeParameter.t }.

(** A vector object is always truthy, so [x if x else d] picks the default
    only for [None]. *)
Definition init (linear rotational : option VectorizeParameter.t) : t :=
  let zero := VectorizeParameter.init 0 (Angle.init 0 false) None in
  mk (match linear with Some l => l | None => zero end)
     (match rotational with Some r => r | None => zero end).

Definition set_linear (self : t) (v : VectorizeParameter.t) : t :=
  mk v (rotational self).

End Speed.

(** ** class CollisionShape(ABC) and class SquareShape(CollisionShape) *)

(** A class statement, as far as instantiation looks at it: its base (other
    than [ABC]), the methods its body decorates with [@abstractmethod] and
    the methods its body defines without the decorator. *)
#[local] Set Warnings "-register-all".

Inductive class_def : Type :=
| Class (cls_name : string) (base : option class_def)
        (abstract_defs concrete_defs : list string).

Definition mem_string (n : string) (l : list string) : bool :=
  existsb (String.eqb n) l.

(** [__abstractmethods__] as [ABCMeta] computes it: the abstract methods of
    the body, and those of the base that the body does not override. *)
Fixpoint abstractmethods (c : class_def) : list string :=
  match c with
  | Class _ base abstract_defs concrete_defs =>
      abstract_defs ++
      match base with
      | None => []
      | Some b =>
          filter (fun n => negb (mem_string n concrete_defs)) (abstractmethods b)
      end
  end.

Record instance : Type := { instance_of : class_def }.

(** Calling a class: a class with abstract methods left cannot be
    instantiated. *)
Definition instantiate (c : class_def) : result instance :=
  match abstractmethods c with
  | [] => Ok {| instance_of := c |}
  | _ :: _ => Raise TypeError
  end.

Definition CollisionShape : class_def :=
  Class "CollisionShape" None ["top_verticals"; "bottom_verticals"]%string [].

Definition SquareShape : class_def :=
  Class "SquareShape" (Some CollisionShape) [] ["top_verticals"]%string.

(** [SquareShape.top_verticals(self, *args)], called with the three
    arguments its body unpacks: a corner [(x, y)], an angle and a size
    [(w, h)]. [self] is not used. *)
Definition top_verticals (c1 : R * R) (a : Angle.t) (size : R * R)
  : (R * R) * (R * R) * (R * R) * (R * R) :=
  let '(x, y) := c1 in
  let '(w, h) := size in
  let x2 := x + w * sin (Angle.radians a) in
  let y2 := y - w * cos (Angle.radians a) in
  let x3 := x2 + h * cos (Angle.radians a) in
  let y3 := y2 + h * sin (Angle.radians a) in
  let x4 := x3 - w * sin (Angle.radians a) in
  let y4 := y + w * cos (Angle.radians a) in
  ((x, y), (x2, y2), (x3, y3), (x4, y4)).

(** ** class SpaceData *)

Module SpaceData.

Record t : Type := mk
  { width : R;
    height : R;
    x : R;
    y : R;
    angle : Angle.t;
    shape : instance }.

(** [SpaceData(size, coords, angles)] *)
Definition init (size coords : R * R) (angles : Angle.t) : result t :=
  let '(width, height) := size in
  let '(x, y) := coords in
  let angle := angles in
  shape <- instantiate CollisionShape ;;
  Ok (mk width height x y angle shape).

Definition update_coords (self : t) (speed : VectorizeParameter.t) (_time : R)
  : (R * R) * t :=
  let self := mk (width self) (height self)
                 (x self + VectorizeParameter.x_vector speed * _time)
                 (y self) (angle self) (shape self) in
  let self := mk (width self) (height self) (x self)
                 (y self + VectorizeParameter.y_vector speed * _time)
                 (angle self) (shape self) in
  ((x self, y self), self).

End SpaceData.

(** ** class ForceData *)

Module ForceData.

Record t : Type := mk
  { mass : R;
    speed : Speed.t }.

(** [ForceData(mass, speed)]: two assignments, nothing is checked. *)
Definition init (mass : R) (speed : Speed.t) : result t :=
  Ok (mk mass speed).

Definition update_speed (self : t) (forces : list VectorizeParameter.t)
           (_time : R) : result (VectorizeParameter.t * t) :=
  match forces with
  | [] => Ok (Speed.linear (speed self), self)
  | forces_0 :: _ =>
      let avg_force := forces_0 in
      (* the iterator is built and dropped, never consumed *)
      let _ := py_map (VectorizeParameter.add avg_force) (skipn 1 forces) in
      let lhs := Speed.linear (speed self) in
      rhs <- VectorizeParameter.truediv
               (VectorizeParameter.mul avg_force _time) (mass self) ;;
      linear <- VectorizeParameter.add lhs rhs ;;
      let self := mk (mass self) (Speed.set_linear (speed self) linear) in
      Ok (Speed.linear (speed self), self)
  end.

End ForceData.

(** ** class CollideObject and class Object(CollideObject) *)

Module Object.

Definition MIN_LENGTH : R := 1.

Record t : Type := mk
  { space_data : SpaceData.t;
    force_data : ForceData.t }.

(** [Object(space_data, force_data)] *)
Definition init (space_data : SpaceData.t) (force_data : ForceData.t)
  : result t :=
  Ok (mk space_data force_data).

Definition mass (self : t) : R := ForceData.mass (force_data self).

(** [interact]: the forces are the variadic [args]; [_time] defaults to 1. *)
Definition interact (self : t) (args : list VectorizeParameter.t)
           (_time : option R) : result ((R * R) * t) :=
  let _time := match _time with Some s => s | None => 1 end in
  '(speed, fd) <- ForceData.update_speed (force_data self) args _time ;;
  let '(coords, sd) := SpaceData.update_coords (space_data self) speed _time in
  Ok (coords, mk sd fd).

End Object.

(** The construction sequence of the main block, its literals abstracted:
    [s, f = (SpaceData(...), ForceData(...)); obj = Object(s, f)]. *)
Definition construct_object (size coords : R * R) (angles : Angle.t)
           (mass : R) (speed : Speed.t) : result Object.t :=
  s <- SpaceData.init size coords angles ;;
  f <- ForceData.init mass speed ;;
  Object.init s f.

(** ** [Angle] and [VectorizeParameter.__add__] on binary64 floats

    The numbers are Python floats: IEEE 754 binary64, with the operations
    of [PrimFloat]. The functions of the C library that [math.cos],
    [math.sin], [math.atan] and the float power end in are a parameter: the
    module fixes the code around them, a [libm] their values. *)

Module Binary64.

Import PrimFloat.
Local Open Scope bool_scope.
Local Open Scope float_scope.

Record libm : Type := Libm
  { c_cos : float -> float;
    c_sin : float -> float;
    c_atan : float -> float;
    c_pow : float -> float -> float }.

(** [math.pi] *)
Definition pi : float := 0x1.921fb54442d18p+1.

(** [v ** 2] on a float [v]: the cases the interpreter settles itself
    (nan, infinities, zero, sign, one), then the C [pow], whose infinite
    result for these finite arguments is raised as [OverflowError]. *)
Definition float_pow_2 (M : libm) (v : float) : result float :=
  if is_nan v then Ok v
  else if is_infinity v then Ok (abs v)
  else if v =? 0 then Ok 0
  else
    let iv := if v <? 0 then - v else v in
    if iv =? 1 then Ok 1
    else
      let ix := c_pow M iv 2 in
      if is_infinity ix then Raise OverflowError else Ok ix.

(** The wrapper of the one-argument functions of [math] that cannot
    overflow ([cos], [sin], [atan], [sqrt]): a nan made from a number, or an
    infinity made from a finite number, is raised as [ValueError]. *)
Definition math_1 (func : float -> float) (x : float) : result float :=
  let r := func x in
  if is_nan r && negb (is_nan x) then Raise ValueError
  else if is_infinity r && is_finite x then Raise ValueError
  else Ok r.

(** [a / b] on floats *)
Definition float_div (a b : float) : result float :=
  if b =? 0 then Raise ZeroDivisionError else Ok (a / b).

Record angle : Type := Angle { angle_value : float }.

Definition radians (self : angle) : float := angle_value self * pi / 180.

Definition angle_sub (self other : angle) : angle :=
  Angle (angle_value self - angle_value other).

(** [Angle(value, to_deg=True)] *)
Definition angle_to_deg (value : float) : angle := Angle (value * 180 / pi).

Record vector : Type := Vector
  { value : float;
    direction : angle;
    name : string }.

(** [c = sqrt(a ** 2 + b ** 2 + 2 * a * b * cos((alpha - betta).radians))] *)
Definition resultant (M : libm) (self other : vector) : result float :=
  let a := value self in
  let b := value other in
  a2 <- float_pow_2 M a ;;
  b2 <- float_pow_2 M b ;;
  cd <- math_1 (c_cos M)
          (radians (angle_sub (direction self) (direction other))) ;;
  math_1 sqrt (a2 + b2 + 2 * a * b * cd).

(** [fx = a * cos(alpha.radians) + b * cos(betta.radians)] *)
Definition x_sum (M : libm) (self other : vector) : result float :=
  ca <- math_1 (c_cos M) (radians (direction self)) ;;
  cb <- math_1 (c_cos M) (radians (direction other)) ;;
  Ok (value self * ca + value other * cb).

(** [fy = a * sin(alpha.radians) + b * sin(betta.radians)] *)
Definition y_sum (M : libm) (self other : vector) : result float :=
  sa <- math_1 (c_sin M) (radians (direction self)) ;;
  sb <- math_1 (c_sin M) (radians (direction other)) ;;
  Ok (value self * sa + value other * sb).

(** [VectorizeParameter.__add__], statement by statement. *)
Definition add (M : libm) (self other : vector) : result vector :=
  c <- resultant M self other ;;
  fx <- x_sum M self other ;;
  fy <- y_sum M self other ;;
  q <- float_div fy fx ;;
  t <- math_1 (c_atan M) q ;;
  let angle := angle_to_deg t in
  Ok (Vector c angle "val").

(** What the C standard fixes of the library, as far as the properties
    below use it: [cos(0) = 1] and [sin(0) = 0] (Annex F), and an infinite
    result where the square overflows (7.12.1). *)
Record annex_f (M : libm) : Prop :=
  { cos_zero : c_cos M 0 = 1;
    sin_zero : c_sin M 0 = 0;
    pow_overflow :
      forall x, is_infinity (x * x) = true -> is_infinity (c_pow M x 2) = true }.


(** A library that knows the standard's values at zero and squares by the
    IEEE product, and answers nan anywhere else: enough to run the model on
    vectors of angle zero. *)
Definition axis_libm : libm :=
  Libm (fun x => if x =? 0 then 1 else nan)
       (fun x => if x =? 0 then x else nan)
       (fun x => if x =? 0 then x else nan)
       (fun x y => if y =? 2 then x * x else nan).

(** [VectorizeParameter(m, Angle(0.0))] *)
Definition along_x (m : float) : vector := Vector m (Angle 0) "val".

Definition huge : float := 0x1p600.

End Binary64.

(** ** The force integration as the specification words it *)

(** The net force of the specification: the forces reduced from left to
    right under vector addition, starting from the first. *)
Fixpoint net_force_spec (acc : VectorizeParameter.t)
         (rest : list VectorizeParameter.t) : result VectorizeParameter.t :=
  match rest with
  | [] => Ok acc
  | f :: rest' =>
      s <- VectorizeParameter.add acc f ;;
      net_force_spec s rest'
  end.

(** [linear_velocity = linear_velocity + (net_force / mass) * dt], an empty
    list leaving the velocity as it is. *)
Definition update_linear_velocity_spec (self : ForceData.t)
           (forces : list VectorizeParameter.t) (dt : R)
  : result (VectorizeParameter.t * ForceData.t) :=
  match forces with
  | [] => Ok (Speed.linear (ForceData.speed self), self)
  | f1 :: rest =>
      net_force <- net_force_spec f1 rest ;;
      acc <- VectorizeParameter.truediv net_force (ForceData.mass self) ;;
      linear <- VectorizeParameter.add (Speed.linear (ForceData.speed self))
                  (VectorizeParameter.mul acc dt) ;;
      Ok (linear,
          ForceData.mk (ForceData.mass self)
            (Speed.set_linear (ForceData.speed self) linear))
  end.

(** ** A sample input: two equal pushes on a body at rest *)

(** A vector of magnitude [m] along the positive x axis, default name. *)
Definition along_x (m : R) : VectorizeParameter.t :=
  VectorizeParameter.init m (Angle.init 0 false) None.

(** [ForceData(1, Speed())] *)
Definition body_at_rest : ForceData.t :=
  ForceData.mk 1 (Speed.init None None).

(** The same body once its linear velocity is [along_x m]. *)
Definition body_moving (m : R) : ForceData.t :=
  ForceData.mk 1 (Speed.init (Some (along_x m)) None).

(** An object holding that body at the origin; its fields are what the
    constructors assign, the shape slot filled directly. *)
Definition sample_object : Object.t :=
  Object.mk
    (SpaceData.mk 50 50 0 0 (Angle.init 0 false) {| instance_of := CollisionShape |})
    body_at_rest.

(** [VectorizeParameter(m, Angle(d))] *)
Definition at_angle (m d : R) : VectorizeParameter.t :=
  VectorizeParameter.init m (Angle.init d false) None.

(** Another object with the position, the mass and the linear velocity of
    [sample_object], and nothing else in common with it. *)
Definition other_object : Object.t :=
  Object.mk
    (SpaceData.mk 20 30 0 0 (Angle.init 45 false) {| instance_of := SquareShape |})
    (ForceData.mk 1 (Speed.init None (Some (at_angle 2 60)))).

(** * Properties *)

(** ** Arithmetic of the host operations *)

Lemma py_truediv_ok (x y : R) : y <> 0 -> py_truediv x y = Ok (x / y).
Proof.
  intros Hy. unfold py_truediv.
  destruct (Req_dec_T y 0) as [E | _]; [contradiction | reflexivity].
Qed.

Lemma py_truediv_zero (x y : R) : y = 0 -> py_truediv x y = Raise ZeroDivisionError.
Proof.
  intros Hy. unfold py_truediv.
  destruct (Req_dec_T y 0) as [_ | N]; [reflexivity | contradiction].
Qed.

Lemma math_sqrt_ok (x : R) : 0 <= x -> math_sqrt x = Ok (sqrt x).
Proof.
  intros Hx. unfold math_sqrt.
  destruct (Rlt_dec x 0) as [L | _]; [lra | reflexivity].
Qed.

(** The radicand of the law of cosines is never negative, so [math.sqrt]
    never raises inside the addition. *)
Lemma cosine_radicand_nonneg (a b th : R) :
  0 <= a ^ 2 + b ^ 2 + 2 * a * b * cos th.
Proof.
  pose proof (COS_bound th) as [Hlo Hhi].
  set (c := cos th) in *. clearbody c.
  destruct (Rle_dec 0 (a * b)) as [Hab | Hab].
  - assert (H : - (a * b) <= a * b * c).
    { assert (0 <= a * b * (c + 1)) by (apply Rmult_le_pos; lra). lra. }
    pose proof (pow2_ge_0 (a - b)). nra.
  - assert (H : a * b <= a * b * c).
    { assert (0 <= (- (a * b)) * (1 - c)) by (apply Rmult_le_pos; lra). lra. }
    pose proof (pow2_ge_0 (a + b)). nra.
Qed.

Lemma radians_sub (p q : Angle.t) :
  Angle.radians (Angle.sub p q) = Angle.radians p - Angle.radians q.
Proof. unfold Angle.radians, Angle.sub, Angle.init; simpl. field. Qed.

Lemma radians_zero : Angle.radians (Angle.init 0 false) = 0.
Proof. unfold Angle.radians, Angle.init; simpl. field. Qed.

Section Addition.

Variables v w : VectorizeParameter.t.

Let a := VectorizeParameter.value v.
Let b := VectorizeParameter.value w.
Let A := Angle.radians (VectorizeParameter.angle v).
Let B := Angle.radians (VectorizeParameter.angle w).
Let fx := VectorizeParameter.x_vector v + VectorizeParameter.x_vector w.
Let fy := VectorizeParameter.y_vector v + VectorizeParameter.y_vector w.

(** The value the addition returns whenever it returns. *)
Lemma add_ok :
  fx <> 0 ->
  VectorizeParameter.add v w =
  Ok (VectorizeParameter.mk
        (sqrt (a ^ 2 + b ^ 2 + 2 * a * b * cos (A - B)))
        (Angle.init (atan (fy / fx)) true)
        VectorizeParameter.default_name).
Proof.
  intros Hfx. unfold VectorizeParameter.add.
  rewrite math_sqrt_ok by apply cosine_radicand_nonneg.
  cbn [bind]. rewrite py_truediv_ok by exact Hfx.
  cbn [bind]. rewrite radians_sub. reflexivity.
Qed.

Lemma add_zero :
  fx = 0 -> VectorizeParameter.add v w = Raise ZeroDivisionError.
Proof.
  intros Hfx. unfold VectorizeParameter.add.
  rewrite math_sqrt_ok by apply cosine_radicand_nonneg.
  cbn [bind]. rewrite py_truediv_zero by exact Hfx. reflexivity.
Qed.

End Addition.

(** Two vectors lying on the positive x axis add up to the vector of the
    summed magnitude on that axis. *)
Lemma add_along_x_axis (a b : R) (n1 n2 : string) :
  0 <= a -> 0 <= b -> a + b <> 0 ->
  VectorizeParameter.add
    (VectorizeParameter.mk a (Angle.mk 0) n1)
    (VectorizeParameter.mk b (Angle.mk 0) n2) =
  Ok (VectorizeParameter.mk (a + b) (Angle.mk 0) VectorizeParameter.default_name).
Proof.
  intros Ha Hb Hab.
  assert (Hrad : Angle.radians (Angle.mk 0) = 0)
    by (unfold Angle.radians; simpl; field).
  rewrite add_ok.
  - unfold VectorizeParameter.x_vector, VectorizeParameter.y_vector.
    cbn [VectorizeParameter.value VectorizeParameter.angle].
    rewrite Hrad, Rminus_diag, cos_0, sin_0.
    do 2 f_equal.
    + replace (a ^ 2 + b ^ 2 + 2 * a * b * 1) with ((a + b) * (a + b)) by ring.
      apply sqrt_square. lra.
    + unfold Angle.init. cbn [negb]. f_equal.
      replace ((a * 0 + b * 0) / (a * 1 + b * 1)) with 0 by (field; lra).
      rewrite atan_0. field. apply PI_neq0.
  - unfold VectorizeParameter.x_vector.
    cbn [VectorizeParameter.value VectorizeParameter.angle].
    rewrite Hrad, cos_0. lra.
Qed.

(** Whatever follows the first force never reaches the result. *)
Lemma update_speed_first_only (self : ForceData.t) (f : VectorizeParameter.t)
      (rest : list VectorizeParameter.t) (dt : R) :
  ForceData.update_speed self (f :: rest) dt = ForceData.update_speed self [f] dt.
Proof. reflexivity. Qed.

Lemma truediv_ok (v : VectorizeParameter.t) (k : R) :
  k <> 0 ->
  VectorizeParameter.truediv v k =
  Ok (VectorizeParameter.mk (VectorizeParameter.value v / k)
        (VectorizeParameter.angle v) VectorizeParameter.default_name).
Proof.
  intros Hk. unfold VectorizeParameter.truediv.
  rewrite py_truediv_ok by exact Hk. reflexivity.
Qed.

Lemma truediv_zero (v : VectorizeParameter.t) :
  VectorizeParameter.truediv v 0 = Raise ZeroDivisionError.
Proof.
  unfold VectorizeParameter.truediv.
  rewrite py_truediv_zero by reflexivity. reflexivity.
Qed.

(** ** Angle *)

(** C9. An angle built from the degree value [d] (the flag left at its
    default) reads back [d] in degrees and [d * PI / 180] in radians; the
    two views convert into each other: building an angle from the radian
    view with the flag set gives the degree value back, and an angle built
    from radians [d] with the flag set reads [d] in radians. *)
Theorem angle_degrees_radians_views (d : R) :
  Angle.degrees (Angle.init d false) = d /\
  Angle.radians (Angle.init d false) = d * PI / 180 /\
  Angle.degrees (Angle.init (Angle.radians (Angle.init d false)) true) = d /\
  Angle.radians (Angle.init d true) = d.
Proof.
  unfold Angle.degrees, Angle.radians, Angle.init; cbn [negb Angle.value].
  repeat split; try reflexivity; field; apply PI_neq0.
Qed.

(** ** VectorizeParameter *)

(** Two unit vectors sixty degrees apart, and their mirror images. *)
Lemma radians_sixty : Angle.radians (Angle.init 60 false) = PI / 3.
Proof. unfold Angle.radians, Angle.init; simpl. field. Qed.

Lemma x_sum_sixty (m : R) :
  VectorizeParameter.x_vector (at_angle m 0)
  + VectorizeParameter.x_vector (at_angle m 60) = m * 3 / 2.
Proof.
  unfold VectorizeParameter.x_vector, at_angle.
  cbn [VectorizeParameter.init VectorizeParameter.value VectorizeParameter.angle].
  rewrite radians_zero, radians_sixty, cos_0, cos_PI3. field.
Qed.

Lemma add_sixty_returns (m : R) :
  m <> 0 ->
  exists r, VectorizeParameter.add (at_angle m 0) (at_angle m 60) = Ok r.
Proof.
  intros Hm. eexists. apply add_ok. rewrite x_sum_sixty. lra.
Qed.




(** C6, as claimed, fails: scaling a vector named ["F"] by 1 returns a
    vector named ["val"], so neither the name nor the vector is kept, and
    dividing by 1 behaves alike. *)
Lemma mul_drops_name :
  let v := VectorizeParameter.init 3 (Angle.init 30 false) (Some "F"%string) in
  VectorizeParameter.name (VectorizeParameter.mul v 1)
    <> VectorizeParameter.name v /\
  VectorizeParameter.mul v 1 <> v /\
  forall r, VectorizeParameter.truediv v 1 = Ok r ->
            VectorizeParameter.name r <> VectorizeParameter.name v.
Proof.
  intros v. repeat split.
  - cbn. discriminate.
  - intros E. apply (f_equal VectorizeParameter.name) in E. cbn in E.
    discriminate.
  - intros r Hr. rewrite truediv_ok in Hr by lra.
    injection Hr as <-. cbn. discriminate.
Qed.

(** ** The addition on binary64 floats *)

Section Binary64Facts.

Import PrimFloat.
Local Open Scope float_scope.

Lemma math_1_raises (f : float -> float) (x : float) (e : exception) :
  Binary64.math_1 f x = Raise e -> e = ValueError.
Proof.
  unfold Binary64.math_1.
  destruct (_ && _)%bool; [intros H; injection H as <-; reflexivity |].
  destruct (_ && _)%bool; [intros H; injection H as <-; reflexivity |].
  discriminate.
Qed.

Lemma float_pow_2_raises (M : Binary64.libm) (x : float) (e : exception) :
  Binary64.float_pow_2 M x = Raise e -> e = OverflowError.
Proof.
  unfold Binary64.float_pow_2.
  destruct (is_nan x); [discriminate |].
  destruct (is_infinity x); [discriminate |].
  destruct (x =? 0); [discriminate |].
  destruct (_ =? 1); [discriminate |].
  destruct (is_infinity _); [| discriminate].
  intros H. injection H as <-. reflexivity.
Qed.

(** No step before the division raises [ZeroDivisionError]. *)
Lemma resultant_raises (M : Binary64.libm) (v w : Binary64.vector)
      (e : exception) :
  Binary64.resultant M v w = Raise e -> e <> ZeroDivisionError.
Proof.
  unfold Binary64.resultant.
  destruct (Binary64.float_pow_2 M (Binary64.value v)) as [a2 | e1] eqn:E1.
  2:{ cbn [bind]. intros H. injection H as <-.
      rewrite (float_pow_2_raises _ _ _ E1). discriminate. }
  destruct (Binary64.float_pow_2 M (Binary64.value w)) as [b2 | e2] eqn:E2.
  2:{ cbn [bind]. intros H. injection H as <-.
      rewrite (float_pow_2_raises _ _ _ E2). discriminate. }
  destruct (Binary64.math_1 (Binary64.c_cos M) _) as [cd | e3] eqn:E3.
  2:{ cbn [bind]. intros H. injection H as <-.
      rewrite (math_1_raises _ _ _ E3). discriminate. }
  cbn [bind]. intros H. rewrite (math_1_raises _ _ _ H). discriminate.
Qed.

Lemma x_sum_raises (M : Binary64.libm) (v w : Binary64.vector) (e : exception) :
  Binary64.x_sum M v w = Raise e -> e = ValueError.
Proof.
  unfold Binary64.x_sum.
  destruct (Binary64.math_1 (Binary64.c_cos M)
              (Binary64.radians (Binary64.direction v))) as [ca | e1] eqn:E1.
  2:{ cbn [bind]. intros H. injection H as <-. exact (math_1_raises _ _ _ E1). }
  cbn [bind].
  destruct (Binary64.math_1 (Binary64.c_cos M)
              (Binary64.radians (Binary64.direction w))) as [cb | e2] eqn:E2.
  2:{ cbn [bind]. intros H. injection H as <-. exact (math_1_raises _ _ _ E2). }
  discriminate.
Qed.

Lemma y_sum_raises (M : Binary64.libm) (v w : Binary64.vector) (e : exception) :
  Binary64.y_sum M v w = Raise e -> e = ValueError.
Proof.
  unfold Binary64.y_sum.
  destruct (Binary64.math_1 (Binary64.c_sin M)
              (Binary64.radians (Binary64.direction v))) as [sa | e1] eqn:E1.
  2:{ cbn [bind]. intros H. injection H as <-. exact (math_1_raises _ _ _ E1). }
  cbn [bind].
  destruct (Binary64.math_1 (Binary64.c_sin M)
              (Binary64.radians (Binary64.direction w))) as [sb | e2] eqn:E2.
  2:{ cbn [bind]. intros H. injection H as <-. exact (math_1_raises _ _ _ E2). }
  discriminate.
Qed.

Lemma cos_at_zero (M : Binary64.libm) :
  Binary64.annex_f M -> Binary64.math_1 (Binary64.c_cos M) 0 = Ok 1.
Proof.
  intros [Hc _ _]. unfold Binary64.math_1. rewrite Hc. reflexivity.
Qed.

Lemma x_sum_along_x (M : Binary64.libm) (a b : float) :
  Binary64.annex_f M ->
  Binary64.x_sum M (Binary64.along_x a) (Binary64.along_x b)
  = Ok (a * 1 + b * 1).
Proof.
  intros H. unfold Binary64.x_sum, Binary64.along_x.
  cbn [Binary64.direction Binary64.value].
  change (Binary64.radians (Binary64.Angle 0)) with 0.
  rewrite (cos_at_zero M H). reflexivity.
Qed.

Lemma axis_libm_annex_f : Binary64.annex_f Binary64.axis_libm.
Proof.
  split; [reflexivity | reflexivity |].
  intros x Hx. exact Hx.
Qed.


(** C5, as claimed, fails in its last part. For [2 ** 600] and [1] along
    the x axis, and any C library that follows the standard (there is one),
    [fx] is computed as [2 ** 600], not zero, and the addition fails:
    [a ** 2] raises [OverflowError]. *)
Lemma add_raises_OverflowError_at_nonzero_fx :
  let v := Binary64.along_x Binary64.huge in
  let w := Binary64.along_x 1 in
  Binary64.annex_f Binary64.axis_libm /\
  (forall M,
      Binary64.annex_f M ->
      Binary64.x_sum M v w = Ok Binary64.huge /\
      (Binary64.huge =? 0) = false /\
      Binary64.add M v w = Raise OverflowError).
Proof.
  intros v w. split; [exact axis_libm_annex_f |].
  intros M H.
  split; [unfold v, w; rewrite (x_sum_along_x M _ _ H); reflexivity |].
  split; [reflexivity |].
  unfold Binary64.add, Binary64.resultant, v, w, Binary64.along_x.
  cbn [Binary64.direction Binary64.value].
  assert (E : Binary64.float_pow_2 M Binary64.huge = Raise OverflowError).
  { unfold Binary64.float_pow_2.
    change (is_nan Binary64.huge) with false.
    change (is_infinity Binary64.huge) with false.
    change (Binary64.huge =? 0) with false.
    change (Binary64.huge <? 0) with false.
    cbv iota. change (Binary64.huge =? 1) with false. cbv iota zeta.
    rewrite (Binary64.pow_overflow M H Binary64.huge) by reflexivity.
    reflexivity. }
  rewrite E. reflexivity.
Qed.

(** C5, amended. Whenever the code computes [fx] as zero, of either sign,
    the addition raises and returns no vector; a returned vector means that
    [fx] was computed and was not zero; and the exception is
    [ZeroDivisionError] exactly when the magnitude, [fx] and [fy] were
    computed and [fx] is zero, the earlier steps raising [OverflowError] or
    [ValueError] only. Nothing is said of a non-zero [fx]. *)
Theorem add_raises_on_zero_fx (M : Binary64.libm) (v w : Binary64.vector) :
  (forall fx,
      Binary64.x_sum M v w = Ok fx -> (fx =? 0) = true ->
      exists e, Binary64.add M v w = Raise e) /\
  (forall r,
      Binary64.add M v w = Ok r ->
      exists fx, Binary64.x_sum M v w = Ok fx /\ (fx =? 0) = false) /\
  (Binary64.add M v w = Raise ZeroDivisionError <->
   exists c fx fy,
     Binary64.resultant M v w = Ok c /\
     Binary64.x_sum M v w = Ok fx /\
     Binary64.y_sum M v w = Ok fy /\
     (fx =? 0) = true).
Proof.
  unfold Binary64.add, Binary64.float_div.
  destruct (Binary64.resultant M v w) as [c | ec] eqn:Ec; cbn [bind].
  2:{ split; [intros; eexists; reflexivity |].
      split; [discriminate |]. split.
      - intros H. injection H as ->.
        exfalso. exact (resultant_raises _ _ _ _ Ec eq_refl).
      - intros (c & fx & fy & Hc & _). discriminate Hc. }
  destruct (Binary64.x_sum M v w) as [fx | ex] eqn:Ex; cbn [bind].
  2:{ split; [discriminate |]. split; [discriminate |]. split.
      - intros H. injection H as ->.
        pose proof (x_sum_raises _ _ _ _ Ex) as F. discriminate F.
      - intros (c' & fx & fy & _ & Hx & _). discriminate Hx. }
  destruct (Binary64.y_sum M v w) as [fy | ey] eqn:Ey; cbn [bind].
  2:{ split; [intros; eexists; reflexivity |].
      split; [discriminate |]. split.
      - intros H. injection H as ->.
        pose proof (y_sum_raises _ _ _ _ Ey) as F. discriminate F.
      - intros (c' & fx' & fy & _ & _ & Hy & _). discriminate Hy. }
  destruct (fx =? 0) eqn:Ez; cbn [bind].
  - split; [intros; eexists; reflexivity |].
    split; [discriminate |]. split; [| reflexivity].
    intros _. exists c, fx, fy. repeat split. exact Ez.
  - split.
    { intros fx' H1 H2. injection H1 as <-. rewrite Ez in H2. discriminate H2. }
    split.
    { intros r _. exists fx. split; [reflexivity | exact Ez]. }
    split.
    + destruct (Binary64.math_1 (Binary64.c_atan M) _) as [t | et] eqn:Et;
        cbn [bind]; [discriminate |].
      intros H. injection H as ->.
      pose proof (math_1_raises _ _ _ Et) as F. discriminate F.
    + intros (c' & fx' & fy' & _ & Hx & _ & Hz).
      injection Hx as <-. rewrite Ez in Hz. discriminate Hz.
Qed.

Lemma add_raises_on_zero_fx_witness :
  let v := Binary64.along_x 1 in
  let w := Binary64.along_x (-1) in
  Binary64.x_sum Binary64.axis_libm v w = Ok 0 /\
  (0 =? 0) = true /\
  exists e, Binary64.add Binary64.axis_libm v w = Raise e.
Proof.
  intros v w.
  assert (Hx : Binary64.x_sum Binary64.axis_libm v w = Ok 0) by reflexivity.
  split; [exact Hx |]. split; [reflexivity |].
  exact (proj1 (add_raises_on_zero_fx Binary64.axis_libm v w) 0 Hx eq_refl).
Defined.

End Binary64Facts.

(** ** ForceData *)

Ltac on_x_axis :=
  change (Angle.init 0 false) with (Angle.mk 0) in *;
  change (VectorizeParameter.init ?m (Angle.mk 0) None)
    with (VectorizeParameter.mk m (Angle.mk 0) VectorizeParameter.default_name)
    in *.

(** C1, at the failing input. The method never looks past the first force:
    the tail of the list does not reach the result. Two unit pushes along x
    on a body of mass 1 at rest, over [dt = 1], leave the velocity at
    magnitude 1 (one push), where the left fold of the specification gives
    magnitude 2. *)
Theorem update_speed_ignores_all_but_first_force :
  (forall self f rest dt,
      ForceData.update_speed self (f :: rest) dt
      = ForceData.update_speed self [f] dt) /\
  ForceData.update_speed body_at_rest [along_x 1; along_x 1] 1
  = Ok (along_x 1, body_moving 1) /\
  update_linear_velocity_spec body_at_rest [along_x 1; along_x 1] 1
  = Ok (along_x 2, body_moving 2) /\
  along_x 1 <> along_x 2.
Proof.
  split; [reflexivity |]. split; [| split].
  - unfold ForceData.update_speed, body_at_rest, body_moving, along_x.
    rewrite truediv_ok by (cbn [ForceData.mass]; lra).
    on_x_axis.
    cbn [bind ForceData.mass ForceData.speed Speed.init Speed.linear
         VectorizeParameter.mul VectorizeParameter.init
         VectorizeParameter.value VectorizeParameter.angle].
    on_x_axis.
    rewrite add_along_x_axis by lra.
    cbn [bind Speed.set_linear Speed.rotational Speed.linear ForceData.speed
         ForceData.mass Speed.init].
    replace (0 + 1 * 1 / 1) with 1 by field.
    reflexivity.
  - unfold update_linear_velocity_spec, body_at_rest, body_moving, along_x.
    cbn [net_force_spec]. on_x_axis.
    rewrite add_along_x_axis by lra.
    cbn [bind ForceData.mass].
    rewrite truediv_ok by lra.
    unfold VectorizeParameter.mul.
    cbn [bind ForceData.mass ForceData.speed Speed.init Speed.linear
         VectorizeParameter.init VectorizeParameter.value
         VectorizeParameter.angle].
    on_x_axis.
    rewrite add_along_x_axis by lra.
    cbn [bind Speed.set_linear Speed.rotational Speed.linear ForceData.speed
         ForceData.mass Speed.init].
    replace (0 + (1 + 1) / 1 * 1) with 2 by field.
    reflexivity.
  - unfold along_x. intros E.
    apply (f_equal VectorizeParameter.value) in E.
    cbn [VectorizeParameter.init VectorizeParameter.value] in E. lra.
Qed.

(** C7. With no force the method changes nothing: the object, and so both
    the linear and the rotational component of its velocity, is the one it
    was called on, and the value returned is the current linear velocity. *)
Theorem update_speed_without_forces (self : ForceData.t) (dt : R) :
  exists self',
    ForceData.update_speed self [] dt
    = Ok (Speed.linear (ForceData.speed self), self') /\
    self' = self /\
    Speed.linear (ForceData.speed self') = Speed.linear (ForceData.speed self) /\
    Speed.rotational (ForceData.speed self')
    = Speed.rotational (ForceData.speed self).
Proof. exists self. repeat split. Qed.

(** C3, as claimed, fails: a mass of zero, and a negative one, are accepted;
    the constructor returns the object and raises nothing. *)
Lemma ForceData_init_accepts_nonpositive_mass :
  let s := Speed.init None None in
  ForceData.init 0 s = Ok (ForceData.mk 0 s) /\
  ForceData.init (-1) s = Ok (ForceData.mk (-1) s) /\
  ~ (forall m, m <= 0 -> exists e, ForceData.init m s = Raise e).
Proof.
  intros s. repeat split.
  intros H. destruct (H 0 (Rle_refl 0)) as [e He]. discriminate He.
Qed.

(** C3, amended. The constructor checks nothing: for every mass and every
    velocity it returns the object holding exactly these two. A mass of zero
    shows only at the first use with a force, where the division by the
    mass raises. *)
Theorem ForceData_init_total (m : R) (s : Speed.t) :
  ForceData.init m s = Ok (ForceData.mk m s) /\
  (forall f rest dt,
      ForceData.update_speed (ForceData.mk 0 s) (f :: rest) dt
      = Raise ZeroDivisionError).
Proof.
  split; [reflexivity |].
  intros f rest dt. unfold ForceData.update_speed.
  cbn [ForceData.mass]. rewrite truediv_zero. reflexivity.
Qed.

(** ** SpaceData and Object *)

Lemma CollisionShape_not_instantiable : instantiate CollisionShape = Raise TypeError.
Proof. reflexivity. Qed.

(** The subclass overrides one of the two abstract methods only. *)
Lemma SquareShape_not_instantiable : instantiate SquareShape = Raise TypeError.
Proof. reflexivity. Qed.

(** C2. Whatever its arguments, the constructor of [SpaceData] raises (the
    [TypeError] of instantiating the abstract [CollisionShape]). So the
    construction of an [Object] raises as well, and so does any computation
    that goes on from a constructed [SpaceData], a call of [update_coords]
    among them: none is ever reached. *)
Theorem SpaceData_init_always_raises (size coords : R * R) (angles : Angle.t) :
  SpaceData.init size coords angles = Raise TypeError /\
  (forall mass speed,
      construct_object size coords angles mass speed = Raise TypeError) /\
  (forall (B : Type) (k : SpaceData.t -> result B),
      (s <- SpaceData.init size coords angles ;; k s) = Raise TypeError) /\
  (forall speed dt,
      (s <- SpaceData.init size coords angles ;;
       Ok (SpaceData.update_coords s speed dt)) = Raise TypeError).
Proof.
  assert (H : SpaceData.init size coords angles = Raise TypeError).
  { destruct size as [w h], coords as [x y]. unfold SpaceData.init.
    rewrite CollisionShape_not_instantiable. reflexivity. }
  repeat split; intros; unfold construct_object; rewrite H; reflexivity.
Qed.

(** C8. [update_coords] moves the position by the Cartesian projections of
    the velocity times the elapsed time, returns the new position, and
    leaves width, height, orientation and shape as they were. *)
Theorem update_coords_euler_step (self : SpaceData.t)
        (speed : VectorizeParameter.t) (dt : R) :
  let new_x := SpaceData.x self + VectorizeParameter.x_vector speed * dt in
  let new_y := SpaceData.y self + VectorizeParameter.y_vector speed * dt in
  exists self',
    SpaceData.update_coords self speed dt = ((new_x, new_y), self') /\
    SpaceData.x self' = new_x /\
    SpaceData.y self' = new_y /\
    SpaceData.width self' = SpaceData.width self /\
    SpaceData.height self' = SpaceData.height self /\
    SpaceData.angle self' = SpaceData.angle self /\
    SpaceData.shape self' = SpaceData.shape self.
Proof.
  intros new_x new_y. unfold SpaceData.update_coords.
  eexists. split; [reflexivity |]. cbn. repeat split.
Qed.

(** C6, amended. [v * k] has magnitude [value v * k], the angle of [v] and
    the default name ["val"], whatever the name of [v]; for [k <> 0],
    [v / k] has magnitude [value v / k], the angle of [v] and the name
    ["val"]. So [(v * k) / k] for [k <> 0], and [v * 1], have the magnitude
    and the angle of [v] and the name ["val"]: they are [v] itself exactly
    when [v] carries the default name. *)
Theorem mul_truediv_keep_angle_reset_name (v : VectorizeParameter.t) (k : R) :
  let renamed := VectorizeParameter.mk (VectorizeParameter.value v)
                   (VectorizeParameter.angle v) VectorizeParameter.default_name in
  VectorizeParameter.mul v k
  = VectorizeParameter.mk (VectorizeParameter.value v * k)
      (VectorizeParameter.angle v) VectorizeParameter.default_name /\
  VectorizeParameter.mul v 1 = renamed /\
  (VectorizeParameter.mul v 1 = v <->
   VectorizeParameter.name v = VectorizeParameter.default_name) /\
  (k <> 0 ->
   VectorizeParameter.truediv v k
   = Ok (VectorizeParameter.mk (VectorizeParameter.value v / k)
           (VectorizeParameter.angle v) VectorizeParameter.default_name) /\
   VectorizeParameter.truediv (VectorizeParameter.mul v k) k = Ok renamed).
Proof.
  intros renamed. subst renamed.
  assert (H1 : VectorizeParameter.mul v 1
               = VectorizeParameter.mk (VectorizeParameter.value v)
                   (VectorizeParameter.angle v) VectorizeParameter.default_name).
  { unfold VectorizeParameter.mul, VectorizeParameter.init.
    f_equal. ring. }
  split; [reflexivity |]. split; [exact H1 |]. split.
  - rewrite H1. destruct v as [m a n]. cbn. split.
    + intros E. injection E as E. symmetry. exact E.
    + intros ->. reflexivity.
  - intros Hk. split.
    + apply truediv_ok. exact Hk.
    + rewrite truediv_ok by exact Hk.
      unfold VectorizeParameter.mul, VectorizeParameter.init.
      cbn [VectorizeParameter.value VectorizeParameter.angle].
      do 2 f_equal. field. exact Hk.
Qed.

Lemma mul_truediv_keep_angle_reset_name_witness :
  let v := VectorizeParameter.init 3 (Angle.init 30 false) (Some "F"%string) in
  2 <> 0 /\
  VectorizeParameter.truediv (VectorizeParameter.mul v 2) 2
  = Ok (VectorizeParameter.mk 3 (Angle.mk 30) VectorizeParameter.default_name).
Proof.
  intros v.
  assert (H2 : 2 <> 0) by lra.
  split; [exact H2 |].
  exact (proj2 (proj2 (proj2 (proj2
           (mul_truediv_keep_angle_reset_name v 2))) H2)).
Defined.


(** * Further properties *)

(** ** Real-number facts behind the polar addition *)

(** The radicand of the law of cosines is the squared norm of the summed
    Cartesian projections. *)
Lemma radicand_is_squared_norm (a b A B : R) :
  a ^ 2 + b ^ 2 + 2 * a * b * cos (A - B)
  = (a * cos A + b * cos B) ^ 2 + (a * sin A + b * sin B) ^ 2.
Proof.
  rewrite cos_minus.
  pose proof (sin2_cos2 A) as HA. pose proof (sin2_cos2 B) as HB.
  unfold Rsqr in HA, HB.
  set (sA := sin A) in *. set (cA := cos A) in *.
  set (sB := sin B) in *. set (cB := cos B) in *.
  assert (Ea : a ^ 2 * (sA * sA + cA * cA) = a ^ 2) by (rewrite HA; ring).
  assert (Eb : b ^ 2 * (sB * sB + cB * cB) = b ^ 2) by (rewrite HB; ring).
  rewrite <- Ea at 1. rewrite <- Eb at 1. ring.
Qed.

(** Going to polar form through the one-argument arctangent and back gives
    the Cartesian pair up to the sign of its first component. *)
Lemma polar_through_atan (fx fy : R) :
  fx <> 0 ->
  sqrt (fx ^ 2 + fy ^ 2) * cos (atan (fy / fx)) = Rabs fx /\
  sqrt (fx ^ 2 + fy ^ 2) * sin (atan (fy / fx)) = Rabs fx * (fy / fx).
Proof.
  intros Hfx.
  set (q := fy / fx).
  assert (Hq : 0 < 1 + q²) by (unfold Rsqr; nra).
  assert (Hs : 0 < sqrt (1 + q²)) by (apply sqrt_lt_R0; exact Hq).
  assert (E : fx ^ 2 + fy ^ 2 = Rsqr fx * (1 + q²))
    by (unfold q, Rsqr; field; exact Hfx).
  rewrite E, sqrt_mult_alt by apply Rle_0_sqr.
  rewrite sqrt_Rsqr_abs, cos_atan, sin_atan.
  split; field; lra.
Qed.

Lemma radians_init_to_deg (r : R) : Angle.radians (Angle.init r true) = r.
Proof.
  unfold Angle.radians, Angle.init; cbn [negb Angle.value].
  field. apply PI_neq0.
Qed.

(** What a returning addition returned, and that its divisor was not zero. *)
Lemma add_inv (v w r : VectorizeParameter.t) :
  VectorizeParameter.add v w = Ok r ->
  let fx := VectorizeParameter.x_vector v + VectorizeParameter.x_vector w in
  let fy := VectorizeParameter.y_vector v + VectorizeParameter.y_vector w in
  fx <> 0 /\
  r = VectorizeParameter.mk (sqrt (fx ^ 2 + fy ^ 2))
        (Angle.init (atan (fy / fx)) true) VectorizeParameter.default_name.
Proof.
  intros H fx fy.
  destruct (Req_dec_T fx 0) as [E | N].
  - rewrite (add_zero v w E) in H. discriminate H.
  - split; [exact N |].
    rewrite (add_ok v w N), radicand_is_squared_norm in H.
    injection H as <-. reflexivity.
Qed.

(** ** Angle arithmetic *)

(** X1. Angles add and subtract on the stored degree value, and so on the
    radian view as well; nothing is normalised, and subtraction undoes
    addition. *)
Theorem angle_add_sub (p q : Angle.t) :
  Angle.degrees (Angle.add p q) = Angle.degrees p + Angle.degrees q /\
  Angle.degrees (Angle.sub p q) = Angle.degrees p - Angle.degrees q /\
  Angle.radians (Angle.add p q) = Angle.radians p + Angle.radians q /\
  Angle.radians (Angle.sub p q) = Angle.radians p - Angle.radians q /\
  Angle.sub (Angle.add p q) q = p /\
  Angle.add (Angle.sub p q) q = p.
Proof.
  destruct p as [dp], q as [dq].
  unfold Angle.degrees, Angle.radians, Angle.add, Angle.sub, Angle.init;
    cbn [negb Angle.value].
  repeat split; try field; f_equal; ring.
Qed.

(** ** Projections, scaling and the polar addition *)

(** X2. The Cartesian projections of a vector have the squared magnitude as
    their sum of squares. *)
Theorem projections_norm (v : VectorizeParameter.t) :
  VectorizeParameter.x_vector v ^ 2 + VectorizeParameter.y_vector v ^ 2
  = VectorizeParameter.value v ^ 2.
Proof.
  unfold VectorizeParameter.x_vector, VectorizeParameter.y_vector.
  pose proof (sin2_cos2 (Angle.radians (VectorizeParameter.angle v))) as H.
  unfold Rsqr in H.
  set (s := sin _) in *. set (c := cos _) in *.
  set (m := VectorizeParameter.value v).
  replace (m ^ 2) with (m ^ 2 * (s * s + c * c)) by (rewrite H; ring).
  ring.
Qed.

(** X3. Scaling a vector scales both projections, and a division that
    returns divides both: the operators act on the Cartesian vector as the
    scalar product and quotient. *)
Theorem mul_truediv_projections (v : VectorizeParameter.t) (k : R) :
  VectorizeParameter.x_vector (VectorizeParameter.mul v k)
  = VectorizeParameter.x_vector v * k /\
  VectorizeParameter.y_vector (VectorizeParameter.mul v k)
  = VectorizeParameter.y_vector v * k /\
  (forall r,
      VectorizeParameter.truediv v k = Ok r ->
      VectorizeParameter.x_vector r = VectorizeParameter.x_vector v / k /\
      VectorizeParameter.y_vector r = VectorizeParameter.y_vector v / k).
Proof.
  unfold VectorizeParameter.x_vector, VectorizeParameter.y_vector.
  split; [| split].
  - cbn. ring.
  - cbn. ring.
  - intros r Hr. destruct (Req_dec_T k 0) as [E | N].
    + subst k. rewrite truediv_zero in Hr. discriminate Hr.
    + rewrite (truediv_ok v k N) in Hr. injection Hr as <-.
      cbn [VectorizeParameter.value VectorizeParameter.angle].
      split; field; exact N.
Qed.

Lemma mul_truediv_projections_witness :
  let v := along_x 6 in
  VectorizeParameter.truediv v 2 = Ok (along_x (6 / 2)) /\
  VectorizeParameter.x_vector (along_x (6 / 2)) = VectorizeParameter.x_vector v / 2.
Proof.
  intros v.
  assert (H : VectorizeParameter.truediv v 2 = Ok (along_x (6 / 2)))
    by (apply truediv_ok; lra).
  split; [exact H |].
  exact (proj1 (proj2 (proj2 (mul_truediv_projections v 2)) _ H)).
Defined.

(** X4. The magnitude of a sum is the Euclidean norm of the summed
    Cartesian projections of the operands. *)
Theorem add_magnitude_is_cartesian_norm (v w r : VectorizeParameter.t) :
  VectorizeParameter.add v w = Ok r ->
  let fx := VectorizeParameter.x_vector v + VectorizeParameter.x_vector w in
  let fy := VectorizeParameter.y_vector v + VectorizeParameter.y_vector w in
  VectorizeParameter.value r = sqrt (fx ^ 2 + fy ^ 2) /\
  VectorizeParameter.value r ^ 2 = fx ^ 2 + fy ^ 2.
Proof.
  intros H fx fy. destruct (add_inv v w r H) as [_ ->].
  cbn [VectorizeParameter.value]. fold fx fy.
  split; [reflexivity |].
  apply pow2_sqrt. nra.
Qed.

Lemma add_magnitude_is_cartesian_norm_witness :
  VectorizeParameter.add (along_x 1) (along_x 1) = Ok (along_x (1 + 1)) /\
  VectorizeParameter.value (along_x (1 + 1)) ^ 2
  = (VectorizeParameter.x_vector (along_x 1)
     + VectorizeParameter.x_vector (along_x 1)) ^ 2
    + (VectorizeParameter.y_vector (along_x 1)
       + VectorizeParameter.y_vector (along_x 1)) ^ 2.
Proof.
  assert (H : VectorizeParameter.add (along_x 1) (along_x 1)
              = Ok (along_x (1 + 1)))
    by (apply add_along_x_axis; lra).
  split; [exact H |].
  exact (proj2 (add_magnitude_is_cartesian_norm _ _ _ H)).
Defined.

(** X5. The addition is commutative, in the value it returns and in the
    exception it raises. *)
Theorem add_comm (v w : VectorizeParameter.t) :
  VectorizeParameter.add v w = VectorizeParameter.add w v.
Proof.
  destruct (Req_dec_T (VectorizeParameter.x_vector v
                       + VectorizeParameter.x_vector w) 0) as [E | N].
  - rewrite (add_zero v w E).
    rewrite Rplus_comm in E. rewrite (add_zero w v E). reflexivity.
  - rewrite (add_ok v w N).
    rewrite Rplus_comm in N. rewrite (add_ok w v N).
    do 2 f_equal.
    + f_equal.
      rewrite <- (cos_neg (Angle.radians (VectorizeParameter.angle w)
                           - Angle.radians (VectorizeParameter.angle v))).
      rewrite Ropp_minus_distr. ring.
    + rewrite (Rplus_comm (VectorizeParameter.y_vector v)).
      rewrite (Rplus_comm (VectorizeParameter.x_vector v)). reflexivity.
Qed.

(** X6. A sum never has a negative magnitude, its angle lies between -90
    and 90 degrees, its x projection is never negative, and it carries the
    default name. *)
Theorem add_result_range (v w r : VectorizeParameter.t) :
  VectorizeParameter.add v w = Ok r ->
  0 <= VectorizeParameter.value r /\
  -90 <= Angle.degrees (VectorizeParameter.angle r) <= 90 /\
  0 <= VectorizeParameter.x_vector r /\
  VectorizeParameter.name r = VectorizeParameter.default_name.
Proof.
  intros H. destruct (add_inv v w r H) as [Hfx ->].
  set (fx := VectorizeParameter.x_vector v + VectorizeParameter.x_vector w) in *.
  set (fy := VectorizeParameter.y_vector v + VectorizeParameter.y_vector w) in *.
  unfold VectorizeParameter.x_vector.
  cbn [VectorizeParameter.value VectorizeParameter.angle VectorizeParameter.name].
  split; [apply sqrt_pos |]. split; [| split; [| reflexivity]].
  - unfold Angle.degrees, Angle.init; cbn [negb Angle.value].
    pose proof (atan_bound (fy / fx)) as [Hlo Hhi].
    pose proof PI_RGT_0 as Hpi.
    set (t := atan (fy / fx)) in *.
    assert (E : t * 180 / PI * PI = t * 180) by (field; lra).
    split; nra.
  - rewrite radians_init_to_deg.
    rewrite (proj1 (polar_through_atan fx fy Hfx)). apply Rabs_pos.
Qed.

Lemma add_result_range_witness :
  exists r,
    VectorizeParameter.add (at_angle 1 0) (at_angle 1 60) = Ok r /\
    0 <= VectorizeParameter.value r /\
    -90 <= Angle.degrees (VectorizeParameter.angle r) <= 90 /\
    0 <= VectorizeParameter.x_vector r /\
    VectorizeParameter.name r = VectorizeParameter.default_name.
Proof.
  destruct (add_sixty_returns 1) as [r Hr]; [lra |].
  exists r. split; [exact Hr |].
  exact (add_result_range _ _ r Hr).
Defined.

(** The projections of a returned sum, in terms of the summed projections
    of the operands. *)
Lemma add_projections (v w r : VectorizeParameter.t) :
  VectorizeParameter.add v w = Ok r ->
  let fx := VectorizeParameter.x_vector v + VectorizeParameter.x_vector w in
  let fy := VectorizeParameter.y_vector v + VectorizeParameter.y_vector w in
  fx <> 0 /\
  VectorizeParameter.x_vector r = Rabs fx /\
  VectorizeParameter.y_vector r = Rabs fx * (fy / fx).
Proof.
  intros H fx fy. destruct (add_inv v w r H) as [Hfx ->]. fold fx fy in Hfx |- *.
  unfold VectorizeParameter.x_vector, VectorizeParameter.y_vector.
  cbn [VectorizeParameter.value VectorizeParameter.angle].
  rewrite radians_init_to_deg.
  split; [exact Hfx |]. exact (polar_through_atan fx fy Hfx).
Qed.

Lemma add_returns (v w : VectorizeParameter.t) :
  VectorizeParameter.x_vector v + VectorizeParameter.x_vector w <> 0 ->
  exists r, VectorizeParameter.add v w = Ok r.
Proof. intros N. eexists. apply add_ok. exact N. Qed.

Lemma x_vector_along_x (m : R) : VectorizeParameter.x_vector (along_x m) = m.
Proof.
  unfold VectorizeParameter.x_vector, along_x.
  cbn [VectorizeParameter.init VectorizeParameter.value VectorizeParameter.angle].
  rewrite radians_zero, cos_0. ring.
Qed.

Lemma y_vector_along_x (m : R) : VectorizeParameter.y_vector (along_x m) = 0.
Proof.
  unfold VectorizeParameter.y_vector, along_x.
  cbn [VectorizeParameter.init VectorizeParameter.value VectorizeParameter.angle].
  rewrite radians_zero, sin_0. ring.
Qed.

(** X7. A returned sum whose operands have a positive summed x projection
    is the true vector sum: its projections are the sums of the operands'
    projections. *)
Theorem add_is_vector_sum_when_fx_positive (v w r : VectorizeParameter.t) :
  let fx := VectorizeParameter.x_vector v + VectorizeParameter.x_vector w in
  let fy := VectorizeParameter.y_vector v + VectorizeParameter.y_vector w in
  VectorizeParameter.add v w = Ok r ->
  0 < fx ->
  VectorizeParameter.x_vector r = fx /\
  VectorizeParameter.y_vector r = fy.
Proof.
  intros fx fy Hr Hfx.
  destruct (add_projections v w r Hr) as (N & Hx & Hy). fold fx fy in N, Hx, Hy.
  rewrite Hx, Hy, Rabs_pos_eq by lra. split; [reflexivity | field; exact N].
Qed.

Lemma add_is_vector_sum_when_fx_positive_witness :
  let v := at_angle 1 0 in
  let w := at_angle 1 60 in
  let fx := VectorizeParameter.x_vector v + VectorizeParameter.x_vector w in
  let fy := VectorizeParameter.y_vector v + VectorizeParameter.y_vector w in
  exists r,
    VectorizeParameter.add v w = Ok r /\
    0 < fx /\
    VectorizeParameter.x_vector r = fx /\
    VectorizeParameter.y_vector r = fy.
Proof.
  intros v w fx fy.
  destruct (add_sixty_returns 1) as [r Hr]; [lra |].
  assert (Hfx : 0 < fx) by (unfold fx, v, w; rewrite x_sum_sixty; lra).
  exists r. split; [exact Hr |]. split; [exact Hfx |].
  exact (add_is_vector_sum_when_fx_positive v w r Hr Hfx).
Defined.

(** X8. A returned sum whose operands have a negative summed x projection
    points the opposite way: its projections are the negated sums of the
    operands' projections. *)
Theorem add_is_opposite_sum_when_fx_negative (v w r : VectorizeParameter.t) :
  let fx := VectorizeParameter.x_vector v + VectorizeParameter.x_vector w in
  let fy := VectorizeParameter.y_vector v + VectorizeParameter.y_vector w in
  VectorizeParameter.add v w = Ok r ->
  fx < 0 ->
  VectorizeParameter.x_vector r = - fx /\
  VectorizeParameter.y_vector r = - fy.
Proof.
  intros fx fy Hr Hfx.
  destruct (add_projections v w r Hr) as (N & Hx & Hy). fold fx fy in N, Hx, Hy.
  rewrite Hx, Hy, Rabs_left by lra. split; [reflexivity | field; exact N].
Qed.

Lemma add_is_opposite_sum_when_fx_negative_witness :
  let v := at_angle (-1) 0 in
  let w := at_angle (-1) 60 in
  let fx := VectorizeParameter.x_vector v + VectorizeParameter.x_vector w in
  let fy := VectorizeParameter.y_vector v + VectorizeParameter.y_vector w in
  exists r,
    VectorizeParameter.add v w = Ok r /\
    fx < 0 /\
    VectorizeParameter.x_vector r = - fx /\
    VectorizeParameter.y_vector r = - fy.
Proof.
  intros v w fx fy.
  destruct (add_sixty_returns (-1)) as [r Hr]; [lra |].
  assert (Hfx : fx < 0) by (unfold fx, v, w; rewrite x_sum_sixty; lra).
  exists r. split; [exact Hr |]. split; [exact Hfx |].
  exact (add_is_opposite_sum_when_fx_negative v w r Hr Hfx).
Defined.

(** ** The velocity update *)

(** The method on a non-empty list, its dropped iterator left out. *)
Lemma update_speed_cons (self : ForceData.t) (f : VectorizeParameter.t)
      (rest : list VectorizeParameter.t) (dt : R) :
  ForceData.update_speed self (f :: rest) dt =
  (rhs <- VectorizeParameter.truediv (VectorizeParameter.mul f dt)
            (ForceData.mass self) ;;
   linear <- VectorizeParameter.add (Speed.linear (ForceData.speed self)) rhs ;;
   Ok (linear,
       ForceData.mk (ForceData.mass self)
         (Speed.set_linear (ForceData.speed self) linear))).
Proof. reflexivity. Qed.

(** The velocity increment [f * dt / m] and its projections. *)
Lemma impulse_ok (f : VectorizeParameter.t) (dt m : R) :
  m <> 0 ->
  exists rhs,
    VectorizeParameter.truediv (VectorizeParameter.mul f dt) m = Ok rhs /\
    VectorizeParameter.x_vector rhs = VectorizeParameter.x_vector f * dt / m /\
    VectorizeParameter.y_vector rhs = VectorizeParameter.y_vector f * dt / m.
Proof.
  intros Hm. eexists. split; [apply truediv_ok; exact Hm |].
  unfold VectorizeParameter.x_vector, VectorizeParameter.y_vector,
    VectorizeParameter.mul, VectorizeParameter.init.
  cbn [VectorizeParameter.value VectorizeParameter.angle].
  split; field; exact Hm.
Qed.

(** One unit push on the sample body. *)
Lemma update_speed_unit_push :
  ForceData.update_speed body_at_rest [along_x 1] 1
  = Ok (along_x 1, body_moving 1).
Proof.
  rewrite update_speed_cons.
  unfold body_at_rest, body_moving, along_x.
  rewrite truediv_ok by (cbn [ForceData.mass]; lra).
  unfold VectorizeParameter.mul.
  cbn [bind ForceData.mass ForceData.speed Speed.init Speed.linear
       VectorizeParameter.init VectorizeParameter.value
       VectorizeParameter.angle].
  on_x_axis.
  rewrite add_along_x_axis by lra.
  cbn [bind Speed.set_linear Speed.rotational].
  replace (0 + 1 * 1 / 1) with 1 by field.
  reflexivity.
Qed.

(** X10. A velocity update that returns leaves the mass and the rotational
    velocity as they were, and returns the linear velocity it stored. *)
Theorem update_speed_frame (self self' : ForceData.t)
        (forces : list VectorizeParameter.t) (dt : R) (v : VectorizeParameter.t) :
  ForceData.update_speed self forces dt = Ok (v, self') ->
  ForceData.mass self' = ForceData.mass self /\
  Speed.rotational (ForceData.speed self')
  = Speed.rotational (ForceData.speed self) /\
  Speed.linear (ForceData.speed self') = v.
Proof.
  destruct forces as [| f rest].
  - cbn. intros H. injection H as <- <-. repeat split.
  - rewrite update_speed_cons.
    destruct (VectorizeParameter.truediv _ _) as [rhs |]; [| discriminate].
    cbn [bind].
    destruct (VectorizeParameter.add _ rhs) as [l |]; [| discriminate].
    cbn [bind]. intros H. injection H as <- <-. repeat split.
Qed.

Lemma update_speed_frame_witness :
  ForceData.update_speed body_at_rest [along_x 1] 1
  = Ok (along_x 1, body_moving 1) /\
  ForceData.mass (body_moving 1) = ForceData.mass body_at_rest /\
  Speed.rotational (ForceData.speed (body_moving 1))
  = Speed.rotational (ForceData.speed body_at_rest) /\
  Speed.linear (ForceData.speed (body_moving 1)) = along_x 1.
Proof.
  split; [exact update_speed_unit_push |].
  exact (update_speed_frame body_at_rest (body_moving 1) [along_x 1] 1
           (along_x 1) update_speed_unit_push).
Defined.

(** X12. A velocity update on a non-empty list that returns, with the x
    projection of the outcome positive, is Newton's law on the Cartesian
    projections: each projection of the velocity has grown by the
    projection of the first force times [dt / mass]. *)
Theorem update_speed_cartesian (self self' : ForceData.t)
        (f v : VectorizeParameter.t) (rest : list VectorizeParameter.t)
        (dt : R) :
  let m := ForceData.mass self in
  let lin := Speed.linear (ForceData.speed self) in
  let vx := VectorizeParameter.x_vector lin
            + VectorizeParameter.x_vector f * dt / m in
  let vy := VectorizeParameter.y_vector lin
            + VectorizeParameter.y_vector f * dt / m in
  ForceData.update_speed self (f :: rest) dt = Ok (v, self') ->
  0 < vx ->
  VectorizeParameter.x_vector v = vx /\
  VectorizeParameter.y_vector v = vy.
Proof.
  intros m lin vx vy H Hvx.
  rewrite update_speed_cons in H. fold m lin in H.
  destruct (Req_dec_T m 0) as [Em | Hm].
  { rewrite Em, truediv_zero in H. discriminate H. }
  destruct (impulse_ok f dt m Hm) as (rhs & Hrhs & Hx & Hy).
  rewrite Hrhs in H. cbn [bind] in H.
  destruct (VectorizeParameter.add lin rhs) as [l |] eqn:Hadd;
    [| discriminate H].
  cbn [bind] in H. injection H as <- _.
  destruct (add_projections lin rhs l Hadd) as (N & Ex & Ey).
  assert (Hpos : 0 < VectorizeParameter.x_vector lin
                     + VectorizeParameter.x_vector rhs)
    by (rewrite Hx; exact Hvx).
  rewrite Ex, Ey, Rabs_pos_eq by lra.
  unfold vx, vy. rewrite <- Hx, <- Hy. split; [reflexivity | field; exact N].
Qed.

Lemma update_speed_cartesian_witness :
  let vx := VectorizeParameter.x_vector
              (Speed.linear (ForceData.speed body_at_rest))
            + VectorizeParameter.x_vector (along_x 1) * 1
              / ForceData.mass body_at_rest in
  let vy := VectorizeParameter.y_vector
              (Speed.linear (ForceData.speed body_at_rest))
            + VectorizeParameter.y_vector (along_x 1) * 1
              / ForceData.mass body_at_rest in
  ForceData.update_speed body_at_rest [along_x 1] 1
  = Ok (along_x 1, body_moving 1) /\
  0 < vx /\
  VectorizeParameter.x_vector (along_x 1) = vx /\
  VectorizeParameter.y_vector (along_x 1) = vy.
Proof.
  intros vx vy.
  assert (Hx : 0 < vx).
  { unfold vx.
    change (Speed.linear (ForceData.speed body_at_rest)) with (along_x 0).
    change (ForceData.mass body_at_rest) with 1.
    rewrite !x_vector_along_x. lra. }
  split; [exact update_speed_unit_push |]. split; [exact Hx |].
  exact (update_speed_cartesian body_at_rest (body_moving 1) (along_x 1)
           (along_x 1) [] 1 update_speed_unit_push Hx).
Defined.

(** ** The step of an object *)

(** [interact] in terms of the two updates it chains. *)
Lemma interact_unfold (self : Object.t) (args : list VectorizeParameter.t)
      (dt : R) :
  Object.interact self args (Some dt) =
  match ForceData.update_speed (Object.force_data self) args dt with
  | Ok (v, fd) =>
      Ok (fst (SpaceData.update_coords (Object.space_data self) v dt),
          Object.mk (snd (SpaceData.update_coords (Object.space_data self) v dt))
            fd)
  | Raise e => Raise e
  end.
Proof.
  unfold Object.interact.
  destruct (ForceData.update_speed _ _ _) as [[v fd] |]; reflexivity.
Qed.

(** One unit push on the sample object. *)
Lemma interact_unit_push :
  Object.interact sample_object [along_x 1] (Some 1)
  = Ok (fst (SpaceData.update_coords (Object.space_data sample_object)
               (along_x 1) 1),
        Object.mk
          (snd (SpaceData.update_coords (Object.space_data sample_object)
                  (along_x 1) 1))
          (body_moving 1)).
Proof.
  rewrite interact_unfold.
  change (Object.force_data sample_object) with body_at_rest.
  rewrite update_speed_unit_push. reflexivity.
Qed.

(** C10. The outcome of [interact] is fixed by what it reads: the position,
    the mass and the linear velocity of its object, the first force and the
    time step. Two runs that agree on these, whatever else differs between
    the two objects and between the two force lists, end alike. Either both
    raise the exception the velocity update raises; or the velocity update
    returns a velocity, both return the old position moved by that velocity
    times the time step, both store this position and this velocity, and
    each leaves every other field of its own object as it was. Runs from one
    state with one list of forces are the case where nothing differs: same
    position, same resulting state. *)
Theorem interact_depends_on_what_it_reads (o1 o2 : Object.t)
        (args1 args2 : list VectorizeParameter.t) (t : option R) :
  let sd1 := Object.space_data o1 in
  let sd2 := Object.space_data o2 in
  let fd1 := Object.force_data o1 in
  let fd2 := Object.force_data o2 in
  let dt := match t with Some s => s | None => 1 end in
  SpaceData.x sd1 = SpaceData.x sd2 ->
  SpaceData.y sd1 = SpaceData.y sd2 ->
  ForceData.mass fd1 = ForceData.mass fd2 ->
  Speed.linear (ForceData.speed fd1) = Speed.linear (ForceData.speed fd2) ->
  hd_error args1 = hd_error args2 ->
  (exists e,
      ForceData.update_speed fd1 args1 dt = Raise e /\
      Object.interact o1 args1 t = Raise e /\
      Object.interact o2 args2 t = Raise e) \/
  (exists x' y' linear',
      ForceData.update_speed fd1 args1 dt =
      Ok (linear',
          ForceData.mk (ForceData.mass fd1)
            (Speed.mk linear' (Speed.rotational (ForceData.speed fd1)))) /\
      x' = SpaceData.x sd1 + VectorizeParameter.x_vector linear' * dt /\
      y' = SpaceData.y sd1 + VectorizeParameter.y_vector linear' * dt /\
      Object.interact o1 args1 t =
      Ok ((x', y'),
          Object.mk
            (SpaceData.mk (SpaceData.width sd1) (SpaceData.height sd1) x' y'
               (SpaceData.angle sd1) (SpaceData.shape sd1))
            (ForceData.mk (ForceData.mass fd1)
               (Speed.mk linear' (Speed.rotational (ForceData.speed fd1))))) /\
      Object.interact o2 args2 t =
      Ok ((x', y'),
          Object.mk
            (SpaceData.mk (SpaceData.width sd2) (SpaceData.height sd2) x' y'
               (SpaceData.angle sd2) (SpaceData.shape sd2))
            (ForceData.mk (ForceData.mass fd2)
               (Speed.mk linear' (Speed.rotational (ForceData.speed fd2)))))).
Proof.
  destruct o1 as [[w1 h1 x1 y1 a1 s1] [m1 [l1 r1]]].
  destruct o2 as [[w2 h2 x2 y2 a2 s2] [m2 [l2 r2]]].
  cbn [Object.space_data Object.force_data SpaceData.x SpaceData.y
       SpaceData.width SpaceData.height SpaceData.angle SpaceData.shape
       ForceData.mass ForceData.speed Speed.linear Speed.rotational].
  intros Hx Hy Hm Hl Hargs. subst x2 y2 m2 l2.
  unfold Object.interact. cbv zeta.
  set (dt := match t with Some s => s | None => 1 end).
  destruct args1 as [| f1 rest1], args2 as [| f2 rest2];
    cbn [hd_error] in Hargs; try discriminate Hargs.
  - right. exists (x1 + VectorizeParameter.x_vector l1 * dt),
             (y1 + VectorizeParameter.y_vector l1 * dt), l1.
    repeat split.
  - injection Hargs as <-.
    rewrite !update_speed_cons.
    cbn [Object.force_data Object.space_data ForceData.mass ForceData.speed
         Speed.linear Speed.set_linear Speed.rotational].
    destruct (VectorizeParameter.truediv _ m1) as [rhs | e]; cbn [bind].
    2:{ left. exists e. repeat split. }
    destruct (VectorizeParameter.add l1 rhs) as [l' | e]; cbn [bind].
    2:{ left. exists e. repeat split. }
    right. exists (x1 + VectorizeParameter.x_vector l' * dt),
             (y1 + VectorizeParameter.y_vector l' * dt), l'.
    repeat split.
Qed.

Lemma interact_depends_on_what_it_reads_witness :
  (exists e,
      ForceData.update_speed body_at_rest [along_x 1] 1 = Raise e /\
      Object.interact sample_object [along_x 1] (Some 1) = Raise e /\
      Object.interact other_object [along_x 1; at_angle 7 60] (Some 1)
      = Raise e) \/
  (exists x' y' linear',
      ForceData.update_speed body_at_rest [along_x 1] 1 =
      Ok (linear', ForceData.mk 1 (Speed.mk linear' (along_x 0))) /\
      x' = 0 + VectorizeParameter.x_vector linear' * 1 /\
      y' = 0 + VectorizeParameter.y_vector linear' * 1 /\
      Object.interact sample_object [along_x 1] (Some 1) =
      Ok ((x', y'),
          Object.mk
            (SpaceData.mk 50 50 x' y' (Angle.init 0 false)
               {| instance_of := CollisionShape |})
            (ForceData.mk 1 (Speed.mk linear' (along_x 0)))) /\
      Object.interact other_object [along_x 1; at_angle 7 60] (Some 1) =
      Ok ((x', y'),
          Object.mk
            (SpaceData.mk 20 30 x' y' (Angle.init 45 false)
               {| instance_of := SquareShape |})
            (ForceData.mk 1 (Speed.mk linear' (at_angle 2 60))))).
Proof.
  exact (interact_depends_on_what_it_reads sample_object other_object
           [along_x 1] [along_x 1; at_angle 7 60] (Some 1)
           eq_refl eq_refl eq_refl eq_refl eq_refl).
Defined.

(** X13. A step that returns has updated the velocity first and moved the
    position by the updated velocity: the returned position is the old one
    plus the projections of the new linear velocity times the time step, it
    is the position stored, and extent, orientation, shape, mass and
    rotational velocity are as before. *)
Theorem interact_step (self self' : Object.t)
        (args : list VectorizeParameter.t) (dt : R) (coords : R * R) :
  Object.interact self args (Some dt) = Ok (coords, self') ->
  let sd := Object.space_data self in
  let sd' := Object.space_data self' in
  let v := Speed.linear (ForceData.speed (Object.force_data self')) in
  ForceData.update_speed (Object.force_data self) args dt
  = Ok (v, Object.force_data self') /\
  coords = (SpaceData.x sd + VectorizeParameter.x_vector v * dt,
            SpaceData.y sd + VectorizeParameter.y_vector v * dt) /\
  coords = (SpaceData.x sd', SpaceData.y sd') /\
  SpaceData.width sd' = SpaceData.width sd /\
  SpaceData.height sd' = SpaceData.height sd /\
  SpaceData.angle sd' = SpaceData.angle sd /\
  SpaceData.shape sd' = SpaceData.shape sd /\
  Object.mass self' = Object.mass self /\
  Speed.rotational (ForceData.speed (Object.force_data self'))
  = Speed.rotational (ForceData.speed (Object.force_data self)).
Proof.
  rewrite interact_unfold. destruct args as [| f rest].
  - cbn. intros H. injection H as <- <-. cbn. repeat split.
  - rewrite update_speed_cons.
    destruct (VectorizeParameter.truediv _ _) as [rhs |]; [| discriminate].
    cbn [bind].
    destruct (VectorizeParameter.add _ rhs) as [l |]; [| discriminate].
    cbn [bind]. intros H. injection H as <- <-. cbn. repeat split.
Qed.

Lemma interact_step_witness :
  let moved := SpaceData.update_coords (Object.space_data sample_object)
                 (along_x 1) 1 in
  let self' := Object.mk (snd moved) (body_moving 1) in
  let sd := Object.space_data sample_object in
  let sd' := Object.space_data self' in
  let v := Speed.linear (ForceData.speed (Object.force_data self')) in
  Object.interact sample_object [along_x 1] (Some 1) = Ok (fst moved, self') /\
  ForceData.update_speed (Object.force_data sample_object) [along_x 1] 1
  = Ok (v, Object.force_data self') /\
  fst moved = (SpaceData.x sd + VectorizeParameter.x_vector v * 1,
               SpaceData.y sd + VectorizeParameter.y_vector v * 1) /\
  fst moved = (SpaceData.x sd', SpaceData.y sd') /\
  SpaceData.width sd' = SpaceData.width sd /\
  SpaceData.height sd' = SpaceData.height sd /\
  SpaceData.angle sd' = SpaceData.angle sd /\
  SpaceData.shape sd' = SpaceData.shape sd /\
  Object.mass self' = Object.mass sample_object /\
  Speed.rotational (ForceData.speed (Object.force_data self'))
  = Speed.rotational (ForceData.speed (Object.force_data sample_object)).
Proof.
  intros moved self' sd sd' v.
  split; [exact interact_unit_push |].
  exact (interact_step sample_object self' [along_x 1] 1 (fst moved)
           interact_unit_push).
Defined.

(** X14. [interact] raises exactly what the velocity update raises: the
    position update adds no failure of its own. *)
Theorem interact_raises_iff (self : Object.t)
        (args : list VectorizeParameter.t) (dt : R) (e : exception) :
  Object.interact self args (Some dt) = Raise e <->
  ForceData.update_speed (Object.force_data self) args dt = Raise e.
Proof.
  rewrite interact_unfold.
  destruct (ForceData.update_speed _ _ _) as [[v fd] |].
  - split; discriminate.
  - split; intros H; injection H as ->; reflexivity.
Qed.

Lemma interact_raises_iff_witness :
  Object.interact
    (Object.mk (Object.space_data sample_object)
       (ForceData.mk 0 (Speed.init None None)))
    [along_x 1] (Some 1)
  = Raise ZeroDivisionError.
Proof.
  apply (proj2 (interact_raises_iff _ [along_x 1] 1 ZeroDivisionError)).
  rewrite update_speed_cons. cbn [Object.force_data ForceData.mass].
  rewrite truediv_zero. reflexivity.
Defined.

(** X15. A step with at least one force and a time step that is not
    negative never moves the object to the left: the new linear velocity
    comes out of an addition, whose x projection is never negative. *)
Theorem interact_never_moves_left (self self' : Object.t)
        (f : VectorizeParameter.t) (rest : list VectorizeParameter.t)
        (dt : R) (coords : R * R) :
  0 <= dt ->
  Object.interact self (f :: rest) (Some dt) = Ok (coords, self') ->
  SpaceData.x (Object.space_data self) <= fst coords /\
  0 <= VectorizeParameter.x_vector
         (Speed.linear (ForceData.speed (Object.force_data self'))).
Proof.
  intros Hdt H.
  rewrite interact_unfold, update_speed_cons in H.
  destruct (VectorizeParameter.truediv _ _) as [rhs |]; [| discriminate].
  cbn [bind] in H.
  destruct (VectorizeParameter.add _ rhs) as [l |] eqn:Hadd; [| discriminate].
  cbn [bind] in H. injection H as <- <-.
  destruct (add_projections _ _ _ Hadd) as (_ & Hx & _).
  pose proof (Rabs_pos (VectorizeParameter.x_vector
                          (Speed.linear (ForceData.speed (Object.force_data self)))
                        + VectorizeParameter.x_vector rhs)) as Hpos.
  rewrite <- Hx in Hpos.
  cbn [fst SpaceData.update_coords SpaceData.x Object.force_data
       ForceData.speed Speed.set_linear Speed.linear].
  split; [nra | exact Hpos].
Qed.

Lemma interact_never_moves_left_witness :
  0 <= 1 /\
  SpaceData.x (Object.space_data sample_object)
  <= fst (fst (SpaceData.update_coords (Object.space_data sample_object)
                 (along_x 1) 1)).
Proof.
  split; [lra |].
  exact (proj1 (interact_never_moves_left sample_object _ (along_x 1) [] 1 _
                  Rle_0_1 interact_unit_push)).
Defined.

(** X16. A step on a non-empty list that returns, with the x projection of
    the new velocity positive, is a semi-implicit Euler step on the
    Cartesian coordinates: the velocity projections have grown by those of
    the first force times [dt / mass], and the position has moved by the
    new velocity times [dt]. *)
Theorem interact_cartesian (self self' : Object.t) (f : VectorizeParameter.t)
        (rest : list VectorizeParameter.t) (dt : R) (coords : R * R) :
  let m := Object.mass self in
  let lin := Speed.linear (ForceData.speed (Object.force_data self)) in
  let vx := VectorizeParameter.x_vector lin
            + VectorizeParameter.x_vector f * dt / m in
  let vy := VectorizeParameter.y_vector lin
            + VectorizeParameter.y_vector f * dt / m in
  Object.interact self (f :: rest) (Some dt) = Ok (coords, self') ->
  0 < vx ->
  coords = (SpaceData.x (Object.space_data self) + vx * dt,
            SpaceData.y (Object.space_data self) + vy * dt) /\
  VectorizeParameter.x_vector
    (Speed.linear (ForceData.speed (Object.force_data self'))) = vx /\
  VectorizeParameter.y_vector
    (Speed.linear (ForceData.speed (Object.force_data self'))) = vy.
Proof.
  intros m lin vx vy H Hvx.
  rewrite interact_unfold, update_speed_cons in H.
  unfold Object.mass in m. fold m lin in H.
  destruct (Req_dec_T m 0) as [Em | Hm].
  { rewrite Em, truediv_zero in H. discriminate H. }
  destruct (impulse_ok f dt m Hm) as (rhs & Hrhs & Hx & Hy).
  rewrite Hrhs in H. cbn [bind] in H.
  destruct (VectorizeParameter.add lin rhs) as [v |] eqn:Hv; [| discriminate H].
  cbn [bind] in H. injection H as <- <-.
  destruct (add_projections lin rhs v Hv) as (N & Ex & Ey).
  assert (Hpos : 0 < VectorizeParameter.x_vector lin
                     + VectorizeParameter.x_vector rhs)
    by (rewrite Hx; exact Hvx).
  assert (Evx : VectorizeParameter.x_vector v = vx)
    by (rewrite Ex, Rabs_pos_eq by lra; unfold vx; rewrite <- Hx; reflexivity).
  assert (Evy : VectorizeParameter.y_vector v = vy)
    by (rewrite Ey, Rabs_pos_eq by lra; unfold vy; rewrite <- Hy; field; exact N).
  split; [| split].
  - unfold SpaceData.update_coords. cbn [fst SpaceData.x SpaceData.y].
    rewrite Evx, Evy. reflexivity.
  - cbn. exact Evx.
  - cbn. exact Evy.
Qed.

Lemma interact_cartesian_witness :
  let moved := SpaceData.update_coords (Object.space_data sample_object)
                 (along_x 1) 1 in
  let self' := Object.mk (snd moved) (body_moving 1) in
  let lin := Speed.linear (ForceData.speed (Object.force_data sample_object)) in
  let vx := VectorizeParameter.x_vector lin
            + VectorizeParameter.x_vector (along_x 1) * 1
              / Object.mass sample_object in
  let vy := VectorizeParameter.y_vector lin
            + VectorizeParameter.y_vector (along_x 1) * 1
              / Object.mass sample_object in
  Object.interact sample_object [along_x 1] (Some 1) = Ok (fst moved, self') /\
  0 < vx /\
  fst moved = (SpaceData.x (Object.space_data sample_object) + vx * 1,
               SpaceData.y (Object.space_data sample_object) + vy * 1) /\
  VectorizeParameter.x_vector
    (Speed.linear (ForceData.speed (Object.force_data self'))) = vx /\
  VectorizeParameter.y_vector
    (Speed.linear (ForceData.speed (Object.force_data self'))) = vy.
Proof.
  intros moved self' lin vx vy.
  assert (Hx : 0 < vx).
  { unfold vx, lin.
    change (Speed.linear (ForceData.speed (Object.force_data sample_object)))
      with (along_x 0).
    change (Object.mass sample_object) with 1.
    rewrite !x_vector_along_x. lra. }
  split; [exact interact_unit_push |]. split; [exact Hx |].
  exact (interact_cartesian sample_object self' (along_x 1) [] 1 (fst moved)
           interact_unit_push Hx).
Defined.

(** ** The square shape *)

(** X17. The subclass overrides only one of the two abstract methods of
    its base: [bottom_verticals] stays abstract, so [SquareShape()] raises
    [TypeError] as the base does. *)
Theorem SquareShape_keeps_an_abstract_method :
  abstractmethods SquareShape = ["bottom_verticals"%string] /\
  instantiate SquareShape = Raise TypeError /\
  (forall c, instantiate c = Raise TypeError <-> abstractmethods c <> []).
Proof.
  split; [reflexivity |]. split; [reflexivity |].
  intros c. unfold instantiate.
  destruct (abstractmethods c); split; try discriminate; try reflexivity.
  intros H. contradiction H. reflexivity.
Qed.

(** X18. Of the four points [top_verticals] returns, the first is the given
    corner, the second lies at distance [|w|] from it, the third at distance
    [|h|] from the second, the two sides meet at a right angle, and the
    fourth has the x coordinate that closes the rectangle. *)
Theorem top_verticals_sides (x y w h : R) (a : Angle.t) :
  let '(c1, c2, c3, c4) := top_verticals (x, y) a (w, h) in
  c1 = (x, y) /\
  (fst c2 - x) ^ 2 + (snd c2 - y) ^ 2 = w ^ 2 /\
  (fst c3 - fst c2) ^ 2 + (snd c3 - snd c2) ^ 2 = h ^ 2 /\
  (fst c2 - x) * (fst c3 - fst c2) + (snd c2 - y) * (snd c3 - snd c2) = 0 /\
  fst c4 = x + h * cos (Angle.radians a).
Proof.
  unfold top_verticals. cbn [fst snd].
  pose proof (sin2_cos2 (Angle.radians a)) as H. unfold Rsqr in H.
  set (s := sin (Angle.radians a)) in *. set (c := cos (Angle.radians a)) in *.
  split; [reflexivity |]. split; [| split; [| split]].
  - replace (w ^ 2) with (w ^ 2 * (s * s + c * c)) by (rewrite H; ring). ring.
  - replace (h ^ 2) with (h ^ 2 * (s * s + c * c)) by (rewrite H; ring). ring.
  - ring.
  - ring.
Qed.

(** X19. The fourth point closes the rectangle (it is the corner moved by
    the side from the second point to the third) exactly when
    [w * cos a = h * sin a]; its y coordinate is [y + w * cos a]
    whatever [h] is. *)
Theorem top_verticals_fourth_point (x y w h : R) (a : Angle.t) :
  let '(c1, c2, c3, c4) := top_verticals (x, y) a (w, h) in
  snd c4 = y + w * cos (Angle.radians a) /\
  ((fst c4 - x = fst c3 - fst c2 /\ snd c4 - y = snd c3 - snd c2) <->
   w * cos (Angle.radians a) = h * sin (Angle.radians a)).
Proof.
  unfold top_verticals. cbn [fst snd].
  set (s := sin (Angle.radians a)). set (c := cos (Angle.radians a)).
  split; [reflexivity |]. split.
  - intros [_ H]. lra.
  - intros H. split; lra.
Qed.
